(** * Navigation state of the terminal record viewer ([data.py], class [Screen])

    A shallow embedding of the mutable fields of [Screen] and of the code that
    updates them: the constructor, [scroll], [paging] and the branches of the
    key loop [input_stream].  Python integers are unbounded, so every counter
    is a [Z]; [//] and [%] are floor division and its remainder, which is what
    [Z.div] and [Z.modulo] compute, except that Python raises on a zero
    divisor.  What lies outside the file is an input of the model: the
    terminal that [init_curses] finds, the decoder [json.loads], the calls
    that the curses window takes, the keys read by [getch] and the text that
    [get_input] returns. *)

From Stdlib Require Import ZArith List String Bool Lia.
Import ListNotations.

Local Open Scope string_scope.
Local Open Scope Z_scope.

(** ** Exceptions *)

Inductive exn : Type :=
| ZeroDivisionError
| curses_error
| JSONDecodeError
| TypeError
| IndexError
| KeyError.

Definition result (A : Type) : Type := (exn + A)%type.

Definition ret {A : Type} (a : A) : result A := inr a.

Definition raise {A : Type} (e : exn) : result A := inl e.

Definition bind {A B : Type} (m : result A) (k : A -> result B) : result B :=
  match m with
  | inl e => inl e
  | inr a => k a
  end.

Notation "x <- m ;; k" := (bind m (fun x => k))
  (at level 61, m at next level, right associativity).

(** [a // b] *)
Definition floordiv (a b : Z) : result Z :=
  if b =? 0 then raise ZeroDivisionError else ret (a / b).

(** [a % b] *)
Definition pymod (a b : Z) : result Z :=
  if b =? 0 then raise ZeroDivisionError else ret (a mod b).

(** [search in item] on two [str] values: [search] occurs in [item] as a
    contiguous block.  The records are the output of [json.dumps], which is
    plain ASCII, so a record is a [string] of one-byte characters. *)
Fixpoint contains (search item : string) : bool :=
  prefix search item ||
  match item with
  | EmptyString => false
  | String _ rest => contains search rest
  end.

(** ** List slices and [enumerate] *)

(** The bound that a slice makes of the index [i] on a list of [len]
    elements: a negative index counts from the end, and both ends are cut to
    the list. *)
Definition slice_bound (len i : Z) : Z :=
  if i <? 0 then Z.max (i + len) 0 else Z.min i len.

(** [l[lo:hi]] *)
Definition pyslice {A : Type} (l : list A) (lo hi : Z) : list A :=
  let len := Z.of_nat (List.length l) in
  let a := slice_bound len lo in
  let b := slice_bound len hi in
  firstn (Z.to_nat (b - a)) (skipn (Z.to_nat a) l).

(** [enumerate(l)], counting from [start]. *)
Fixpoint enumerate_from {A : Type} (start : Z) (l : list A) : list (Z * A) :=
  match l with
  | [] => []
  | x :: rest => (start, x) :: enumerate_from (start + 1) rest
  end.

Definition enumerate {A : Type} (l : list A) : list (Z * A) :=
  enumerate_from 0 l.

(** ** Key codes of the curses library read by [input_stream] *)

Module curses.
Definition KEY_DOWN : Z := 258.
Definition KEY_UP : Z := 259.
Definition KEY_LEFT : Z := 260.
Definition KEY_RIGHT : Z := 261.
Definition KEY_ENTER : Z := 343.
Definition ESC : Z := 27.
End curses.

(** ** The class [Screen] *)

Module Screen.

Definition UP : Z := -1.
Definition DOWN : Z := 1.

(** The fields assigned by [__init__], without the curses window and its
    size.  [backup] is [None] in Python when no list is set aside; [item] is
    [-1] when no record is opened. *)
Record t : Type := mk {
  items : list string;
  backup : option (list string);
  item : Z;
  max_lines : Z;
  top : Z;
  bottom : Z;
  current : Z;
  page : Z
}.

Definition set_items (v : list string) (s : t) : t :=
  mk v (backup s) (item s) (max_lines s) (top s) (bottom s) (current s) (page s).

Definition set_backup (v : option (list string)) (s : t) : t :=
  mk (items s) v (item s) (max_lines s) (top s) (bottom s) (current s) (page s).

Definition set_item (v : Z) (s : t) : t :=
  mk (items s) (backup s) v (max_lines s) (top s) (bottom s) (current s) (page s).

Definition set_top (v : Z) (s : t) : t :=
  mk (items s) (backup s) (item s) (max_lines s) v (bottom s) (current s) (page s).

Definition set_current (v : Z) (s : t) : t :=
  mk (items s) (backup s) (item s) (max_lines s) (top s) (bottom s) v (page s).

(** The assignments of [__init__] that follow [init_curses()], with [LINES]
    the value of [curses.LINES] that they read. *)
Definition init (items0 : list string) (LINES : Z) : result t :=
  let bottom0 := Z.of_nat (List.length items0) in
  page0 <- floordiv bottom0 LINES ;;
  ret (mk items0 None (-1) LINES 0 bottom0 0 page0).

(** What [init_curses()] meets: [curses.initscr()] or one of the calls after
    it raises [curses.error], or the screen is set up and has [LINES] rows
    and [COLS] columns, at least one of each. *)
Inductive terminal : Type :=
| no_terminal
| terminal_of (LINES COLS : positive).

(** [init_curses()]: the value of [curses.LINES] once it has returned. *)
Definition init_curses (term : terminal) : result Z :=
  match term with
  | no_terminal => raise curses_error
  | terminal_of LINES _ => ret (Z.pos LINES)
  end.

(** [Screen(items)] on the terminal [term]. *)
Definition create (term : terminal) (items0 : list string) : result t :=
  LINES <- init_curses term ;;
  init items0 LINES.

(** [scroll(direction)]: four guarded updates, each followed by [return]. *)
Definition scroll (direction : Z) (s : t) : t :=
  let next_line := current s + direction in
  if (direction =? UP) && ((0 <? top s) && (current s =? 0)) then
    set_top (top s + direction) s
  else if (direction =? DOWN) && (next_line =? max_lines s)
          && (top s + max_lines s <? bottom s) then
    set_top (top s + direction) s
  else if (direction =? UP) && ((0 <? top s) || (0 <? current s)) then
    set_current next_line s
  else if (direction =? DOWN) && (next_line <? max_lines s)
          && (top s + next_line <? bottom s) then
    set_current next_line s
  else s.

(** [paging(direction)]: the cursor is first cut down when the next page is
    the one numbered [page], then [top] moves by a page. *)
Definition paging (direction : Z) (s : t) : result t :=
  current_page <- floordiv (top s + current s) (max_lines s) ;;
  let next_page := current_page + direction in
  s1 <- (if next_page =? page s then
           r <- pymod (bottom s) (max_lines s) ;;
           ret (set_current (Z.min (current s) (r - 1)) s)
         else ret s) ;;
  if (direction =? UP) && (0 <? current_page) then
    ret (set_top (Z.max 0 (top s1 - max_lines s1)) s1)
  else if (direction =? DOWN) && (current_page <? page s1) then
    ret (set_top (top s1 + max_lines s1) s1)
  else ret s1.

(** The branches of [input_stream] that are written in place. *)

(** Key [r]. *)
Definition restore (s : t) : t :=
  match backup s with
  | Some b =>
      (* self.backup, self.items = self.items, self.backup *)
      let s1 := set_items b (set_backup (Some (items s)) s) in
      set_backup None s1
  | None => s
  end.

(** Key [f], [search] being what [get_input] returned.  The old list object
    becomes [backup] and is only read afterwards; [items] is a new list that
    receives the matching records in order. *)
Definition filter (search : string) (s : t) : t :=
  let s1 := set_backup (Some (items s)) s in
  let s2 := set_items [] s1 in
  match backup s2 with
  | Some b =>
      fold_left
        (fun acc it =>
           if contains search it then set_items (items acc ++ [it]) acc
           else acc)
        b s2
  | None => s2 (* not reached: [backup] was set two lines above *)
  end.

(** Enter. *)
Definition select (s : t) : t := set_item (current s) s.

(** Escape. *)
Definition cancel (s : t) : t := set_item (-1) s.

(** The [if]/[elif] chain of one turn of the [while True] loop of
    [input_stream]: [ch] is the key returned by [getch].  [None] is the
    [break] on [q]. *)
Definition input_step (ch : Z) (search : string) (s : t) : result (option t) :=
  if ch =? curses.KEY_UP then ret (Some (scroll UP s))
  else if ch =? curses.KEY_DOWN then ret (Some (scroll DOWN s))
  else if ch =? curses.KEY_LEFT then s' <- paging UP s ;; ret (Some s')
  else if ch =? curses.KEY_RIGHT then s' <- paging DOWN s ;; ret (Some s')
  else if ch =? 114 then ret (Some (restore s))
  else if ch =? 102 then ret (Some (filter search s))
  else if ch =? 113 then ret None
  else if (ch =? curses.KEY_ENTER) || (ch =? 10) || (ch =? 13) then
    ret (Some (select s))
  else if ch =? curses.ESC then ret (Some (cancel s))
  else ret (Some s).

(** A call [window.addstr(y, x, text, color_pair(pair))]. *)
Inductive draw : Type :=
| addstr (y x : Z) (text : string) (pair : Z).

Section Display.

(** [json.loads] of a record followed by the reading of each key and of
    [str] of its value, in the order of the decoded object; [None] when any
    of that raises. *)
Variable loads : string -> option (list (string * string)).

(** The calls for the fields of a decoded record:
    [addstr(5 + sub_idx, 5, f'{item} :{str(items[item])}', color_pair(3))]. *)
Definition field_rows (fields : list (string * string)) : list draw :=
  map (fun e : Z * (string * string) =>
         addstr (5 + fst e) 5 (fst (snd e) ++ " :" ++ snd (snd e)) 3)
      (enumerate fields).

(** The loop of the branch [self.item != -1]: it looks for the row
    [idx == self.current], decodes it, writes its fields and breaks. *)
Fixpoint detail_rows (cur : Z) (window : list (Z * string))
  : option (list draw) :=
  match window with
  | [] => Some []
  | (idx, it) :: rest =>
      if idx =? cur then
        match loads it with
        | Some fields => Some (field_rows fields)
        | None => None
        end
      else detail_rows cur rest
  end.

(** The loop of the [else] branch: every visible record on its own line,
    the cursor line in pair 2 and the others in pair 1. *)
Definition list_rows (cur : Z) (window : list (Z * string)) : list draw :=
  map (fun e : Z * string =>
         if fst e =? cur then addstr (fst e) 0 (snd e) 2
         else addstr (fst e) 0 (snd e) 1)
      window.

(** The calls that [display()] makes between [erase] and [refresh] when the
    window takes every one of them, or [None] when decoding raises.  What
    the window refuses is in [display_run] below. *)
Definition display (s : t) : option (list draw) :=
  let window :=
    enumerate (pyslice (items s) (top s) (top s + max_lines s)) in
  if negb (item s =? -1) then detail_rows (current s) window
  else Some (list_rows (current s) window).

End Display.

Section Window.

(** [json.loads] of a record as [display] uses the result.  It raises, or the
    result cannot be enumerated (both before any call of [addstr]), or it
    gives the entries that [enumerate(items)] yields: for each entry [item]
    the texts of [f'{item}'] and of [str(items[item])], or what
    [items[item]] raises. *)
Variable loads : string -> result (list (result (string * string))).

(** Whether the curses window takes a call of [addstr]; on the others the
    call raises [curses.error]. *)
Variable accepts : draw -> bool.

Definition put (d : draw) : result draw :=
  if accepts d then ret d else raise curses_error.

(** The inner loop of the detail branch, entry by entry: the text is built
    (which reads [items[item]]), then written. *)
Fixpoint write_fields (sub_idx : Z)
    (fields : list (result (string * string))) : result (list draw) :=
  match fields with
  | [] => ret []
  | field :: rest =>
      kv <- field ;;
      d <- put (addstr (5 + sub_idx) 5 (fst kv ++ " :" ++ snd kv) 3) ;;
      ds <- write_fields (sub_idx + 1) rest ;;
      ret (d :: ds)
  end.

(** The loop of the branch [self.item != -1]. *)
Fixpoint detail_run (cur : Z) (window : list (Z * string))
  : result (list draw) :=
  match window with
  | [] => ret []
  | (idx, it) :: rest =>
      if idx =? cur then
        fields <- loads it ;;
        write_fields 0 fields
      else detail_run cur rest
  end.

(** The loop of the [else] branch. *)
Fixpoint list_run (cur : Z) (window : list (Z * string))
  : result (list draw) :=
  match window with
  | [] => ret []
  | (idx, it) :: rest =>
      d <- put (if idx =? cur then addstr idx 0 it 2
                else addstr idx 0 it 1) ;;
      ds <- list_run cur rest ;;
      ret (d :: ds)
  end.

(** [display()] on the window: the calls made, all of them taken, or the
    exception that ends it. *)
Definition display_run (s : t) : result (list draw) :=
  let window :=
    enumerate (pyslice (items s) (top s) (top s + max_lines s)) in
  if negb (item s =? -1) then detail_run (current s) window
  else list_run (current s) window.

(** [input_stream()] on a finite script of keys, each with the text that
    [get_input] returns when the key opens the filter prompt.  Every turn
    starts with [display()]; the loop ends at [q], or with the exception
    raised in the turn.  At the end of the script the screen has been drawn
    and [getch] waits. *)
Fixpoint input_stream (keys : list (Z * string)) (s : t) : result t :=
  drawn <- display_run s ;;
  match keys with
  | [] => ret s
  | (ch, search) :: rest =>
      o <- input_step ch search s ;;
      match o with
      | Some s' => input_stream rest s'
      | None => ret s
      end
  end.

End Window.

End Screen.

(** ** Predicates of the specification *)

(** The bounds that the specification asks of the viewport and the cursor,
    with [max_lines] as the capacity. *)
Definition viewport_ok (s : Screen.t) : Prop :=
  0 <= Screen.top s <= Screen.bottom s /\
  0 <= Screen.current s < Screen.max_lines s /\
  (0 < Screen.bottom s -> Screen.top s + Screen.current s < Screen.bottom s).

(** [bottom] is the length of the list on display. *)
Definition bottom_ok (s : Screen.t) : Prop :=
  Screen.bottom s = Z.of_nat (List.length (Screen.items s)).

(** [n] presses of the same key. *)
Definition scroll_n (direction : Z) (n : nat) (s : Screen.t) : Screen.t :=
  Nat.iter n (Screen.scroll direction) s.

Fixpoint paging_n (direction : Z) (n : nat) (s : Screen.t) : result Screen.t :=
  match n with
  | O => ret s
  | S n' => s' <- Screen.paging direction s ;; paging_n direction n' s'
  end.

(** A list of [n] one-letter records, the shape of list used in the examples. *)
Definition records (n : nat) : list string := List.repeat "r" n.

(** A screen of [L] records on [C] lines showing page [k] with the cursor on
    its first row. *)
Definition on_page (L C k : Z) (s : Screen.t) : Prop :=
  Screen.bottom s = L /\ Screen.max_lines s = C /\ Screen.page s = L / C /\
  Screen.current s = 0 /\ Screen.top s = k * C.

(** The index in the list of the record under the cursor. *)
Definition cursor_index (s : Screen.t) : Z := Screen.top s + Screen.current s.

(** The window starts on a page boundary. *)
Definition page_aligned (s : Screen.t) : Prop :=
  exists k, 0 <= k /\ Screen.top s = k * Screen.max_lines s.

(** [l1] is [l2] with some elements left out, the others in their order. *)
Inductive subseq {A : Type} : list A -> list A -> Prop :=
| subseq_nil : subseq [] []
| subseq_skip (x : A) (l1 l2 : list A) : subseq l1 l2 -> subseq l1 (x :: l2)
| subseq_keep (x : A) (l1 l2 : list A) :
    subseq l1 l2 -> subseq (x :: l1) (x :: l2).


(** A script of line keys and of page keys. *)
Fixpoint scroll_all (directions : list Z) (s : Screen.t) : Screen.t :=
  match directions with
  | [] => s
  | d :: rest => scroll_all rest (Screen.scroll d s)
  end.

Fixpoint paging_all (directions : list Z) (s : Screen.t) : result Screen.t :=
  match directions with
  | [] => ret s
  | d :: rest => s' <- Screen.paging d s ;; paging_all rest s'
  end.



(** A curses window of [LINES] rows and [COLS] columns: it takes a call
    that starts inside it and whose text ends before its last cell. *)
Definition window_accepts (LINES COLS : Z) (d : Screen.draw) : bool :=
  match d with
  | Screen.addstr y x text _ =>
      (0 <=? y) && (y <? LINES) && (0 <=? x) && (x <? COLS) &&
      (y * COLS + x + Z.of_nat (String.length text) <? LINES * COLS)
  end.

(** ** Tactics *)

(** The four guards of [scroll] as a case split on the state. *)
Ltac scroll_cases :=
  unfold Screen.scroll, Screen.UP, Screen.DOWN;
  repeat match goal with
    | |- context [if ?b then _ else _] =>
        let E := fresh "E" in destruct b eqn:E
    end;
  repeat match goal with
    | H : _ && _ = true |- _ => apply andb_true_iff in H; destruct H
    | H : _ || _ = true |- _ => apply orb_true_iff in H; destruct H
    | H : _ && _ = false |- _ => apply andb_false_iff in H; destruct H
    | H : _ || _ = false |- _ => apply orb_false_iff in H; destruct H
    | H : (_ =? _) = true |- _ => apply Z.eqb_eq in H
    | H : (_ =? _) = false |- _ => apply Z.eqb_neq in H
    | H : (_ <? _) = true |- _ => apply Z.ltb_lt in H
    | H : (_ <? _) = false |- _ => apply Z.ltb_ge in H
    end.

(** Case split on every guard in the goal, with the comparisons turned into
    facts on integers. *)
Ltac guard_cases :=
  repeat match goal with
    | |- context [if ?b then _ else _] =>
        let E := fresh "E" in destruct b eqn:E
    end;
  repeat match goal with
    | H : _ && _ = true |- _ => apply andb_true_iff in H; destruct H
    | H : _ || _ = true |- _ => apply orb_true_iff in H; destruct H
    | H : _ && _ = false |- _ => apply andb_false_iff in H; destruct H
    | H : _ || _ = false |- _ => apply orb_false_iff in H; destruct H
    | H : (_ =? _) = true |- _ => apply Z.eqb_eq in H
    | H : (_ =? _) = false |- _ => apply Z.eqb_neq in H
    | H : (_ <? _) = true |- _ => apply Z.ltb_lt in H
    | H : (_ <? _) = false |- _ => apply Z.ltb_ge in H
    end.

(** ** Field lemmas *)

Lemma set_items_same (s : Screen.t) : Screen.set_items (Screen.items s) s = s.
Proof. destruct s; reflexivity. Qed.

Lemma set_current_same (s : Screen.t) :
  Screen.set_current (Screen.current s) s = s.
Proof. destruct s; reflexivity. Qed.

(** The loop of the filter branch computes [List.filter] of the old list. *)
Lemma filter_loop (search : string) (l : list string) (s : Screen.t) :
  fold_left
    (fun acc it =>
       if contains search it
       then Screen.set_items (Screen.items acc ++ [it]) acc
       else acc)
    l s
  = Screen.set_items (Screen.items s ++ List.filter (contains search) l) s.
Proof.
  revert s; induction l as [|x l IH]; intro s; simpl.
  - rewrite app_nil_r. symmetry. apply set_items_same.
  - destruct (contains search x).
    + rewrite IH. simpl. rewrite <- app_assoc. reflexivity.
    + apply IH.
Qed.

Lemma filter_eq (search : string) (s : Screen.t) :
  Screen.filter search s
  = Screen.mk (List.filter (contains search) (Screen.items s))
      (Some (Screen.items s)) (Screen.item s) (Screen.max_lines s)
      (Screen.top s) (Screen.bottom s) (Screen.current s) (Screen.page s).
Proof.
  unfold Screen.filter. simpl. rewrite filter_loop. reflexivity.
Qed.

Lemma contains_empty (item : string) : contains "" item = true.
Proof. destruct item; reflexivity. Qed.

Lemma filter_all {A : Type} (f : A -> bool) (l : list A) :
  (forall x, f x = true) -> List.filter f l = l.
Proof.
  intro H; induction l as [|x l IH]; simpl; [reflexivity|].
  rewrite H, IH. reflexivity.
Qed.

Lemma restore_eq (s : Screen.t) :
  Screen.restore s =
  match Screen.backup s with
  | Some b =>
      Screen.mk b None (Screen.item s) (Screen.max_lines s) (Screen.top s)
        (Screen.bottom s) (Screen.current s) (Screen.page s)
  | None => s
  end.
Proof. unfold Screen.restore. destruct (Screen.backup s); reflexivity. Qed.

(** Neither list branch of the key loop assigns [bottom] or [page]. *)
Lemma filter_restore_keep_bottom (search : string) (s : Screen.t) :
  Screen.bottom (Screen.filter search s) = Screen.bottom s /\
  Screen.page (Screen.filter search s) = Screen.page s /\
  Screen.bottom (Screen.restore s) = Screen.bottom s /\
  Screen.page (Screen.restore s) = Screen.page s.
Proof.
  rewrite filter_eq, restore_eq.
  destruct (Screen.backup s); simpl; auto.
Qed.

(** ** Scrolling *)

(** A line scroll keeps the viewport and the cursor inside the list,
    whatever integer is passed as direction. *)
Lemma scroll_keeps_viewport_ok (direction : Z) (s : Screen.t) :
  viewport_ok s -> viewport_ok (Screen.scroll direction s).
Proof.
  unfold viewport_ok. intros (Ht & Hc & Hb).
  scroll_cases; simpl; try lia; repeat split; try lia; auto.
Qed.

Lemma scroll_n_keeps_viewport_ok (direction : Z) (n : nat) (s : Screen.t) :
  viewport_ok s -> viewport_ok (scroll_n direction n s).
Proof.
  intro H. unfold scroll_n. induction n as [|n IH]; simpl.
  - exact H.
  - apply scroll_keeps_viewport_ok, IH.
Qed.

Lemma init_viewport_ok (items0 : list string) (LINES : Z) :
  0 < LINES ->
  exists s, Screen.init items0 LINES = inr s /\ viewport_ok s /\ bottom_ok s.
Proof.
  intro H. unfold Screen.init, floordiv, bind, ret.
  destruct (Z.eqb_spec LINES 0) as [E|E]; [lia|].
  eexists; split; [reflexivity|].
  unfold viewport_ok, bottom_ok; simpl. lia.
Qed.

(** With a line count other than 0, [paging] returns and leaves [max_lines]
    as it is, so no key pressed on a constructed screen raises. *)
Lemma paging_returns (direction : Z) (s : Screen.t) :
  Screen.max_lines s <> 0 ->
  exists s',
    Screen.paging direction s = inr s' /\
    Screen.max_lines s' = Screen.max_lines s /\ Screen.page s' = Screen.page s.
Proof.
  intro H. unfold Screen.paging, floordiv, pymod, bind, ret, raise.
  destruct (Z.eqb_spec (Screen.max_lines s) 0) as [E|_]; [contradiction|].
  repeat match goal with
    | |- context [if ?b then _ else _] => destruct b
    end; eexists; repeat split.
Qed.

(** The walk of the specification: ten records on seven lines.  Six
    line-downs move the cursor to row 6; the next three move the window to
    [top = 3]; every further one changes nothing. *)
Example scroll_down_ten_on_seven :
  exists s0,
    Screen.init (records 10) 7 = inr s0 /\
    (let s := scroll_n Screen.DOWN 6 s0 in
     Screen.top s = 0 /\ Screen.current s = 6) /\
    (let s := scroll_n Screen.DOWN 7 s0 in
     Screen.top s = 1 /\ Screen.current s = 6) /\
    (let s := scroll_n Screen.DOWN 9 s0 in
     Screen.top s = 3 /\ Screen.current s = 6) /\
    scroll_n Screen.DOWN 10 s0 = scroll_n Screen.DOWN 9 s0.
Proof. eexists. repeat split. Qed.


(** ** Paging *)

(** C1.  The bounds [0 <= top <= bottom], [0 <= current < max_lines] and
    [top + current < bottom] are lost by [paging], although [scroll] keeps
    them ([scroll_keeps_viewport_ok]).  With 14 records on 7 lines the second
    page-down cuts the cursor to [14 % 7 - 1 = -1] and sets [top] to 14; with
    10 records on 7 lines, page-down, line-up, page-down puts [top] at 13,
    past [bottom]; and after nine line-downs and three line-ups a page-down
    leaves [top + current = 12]. *)
Theorem paging_loses_viewport_bounds :
  (exists s0 s2,
      Screen.init (records 14) 7 = inr s0 /\ viewport_ok s0 /\
      paging_n Screen.DOWN 2 s0 = inr s2 /\
      Screen.top s2 = 14 /\ Screen.current s2 = -1 /\ Screen.bottom s2 = 14 /\
      ~ viewport_ok s2) /\
  (exists s0 s1 s3,
      Screen.init (records 10) 7 = inr s0 /\
      Screen.paging Screen.DOWN s0 = inr s1 /\
      Screen.paging Screen.DOWN (Screen.scroll Screen.UP s1) = inr s3 /\
      Screen.top s3 = 13 /\ Screen.current s3 = 0 /\ Screen.bottom s3 = 10 /\
      ~ viewport_ok s3) /\
  (exists s0 s1,
      Screen.init (records 10) 7 = inr s0 /\
      Screen.paging Screen.DOWN
        (scroll_n Screen.UP 3 (scroll_n Screen.DOWN 9 s0)) = inr s1 /\
      Screen.top s1 = 10 /\ Screen.current s1 = 2 /\ Screen.bottom s1 = 10 /\
      ~ viewport_ok s1).
Proof.
  split; [|split].
  - do 2 eexists. split; [reflexivity|]. split.
    { unfold viewport_ok; simpl; lia. }
    split; [vm_compute; reflexivity|].
    unfold viewport_ok; simpl. repeat split; lia.
  - do 3 eexists. split; [reflexivity|].
    split; [vm_compute; reflexivity|].
    split; [vm_compute; reflexivity|].
    unfold viewport_ok; simpl. repeat split; lia.
  - do 2 eexists. split; [reflexivity|].
    split; [vm_compute; reflexivity|].
    unfold viewport_ok; simpl. repeat split; lia.
Qed.

(** Page-down from the start when the last page is not full: each press adds
    [max_lines] to [top], [bottom // max_lines] presses reach the last page,
    and the next press changes nothing. *)
Section PageDownPartialLastPage.

Variables (L C : Z).
Hypothesis C_pos : 0 < C.
Hypothesis last_page_partial : L mod C <> 0.

Lemma paging_down_next_page (k : Z) (s : Screen.t) :
  on_page L C k s -> 0 <= k < L / C ->
  Screen.paging Screen.DOWN s = inr (Screen.set_top ((k + 1) * C) s).
Proof.
  intros (Hb & Hm & Hp & Hc & Ht) Hk.
  unfold Screen.paging, floordiv, pymod, bind, ret.
  rewrite Hm, Hb, Hp, Hc, Ht.
  destruct (Z.eqb_spec C 0) as [E|_]; [lia|].
  rewrite Z.add_0_r, Z.div_mul by lia.
  assert (Hr : 0 < L mod C) by (pose proof (Z.mod_pos_bound L C C_pos); lia).
  assert (Hcur : Screen.set_current (Z.min 0 (L mod C - 1)) s = s).
  { rewrite Z.min_l by lia. rewrite <- Hc. apply set_current_same. }
  destruct (k + Screen.DOWN =? L / C); rewrite ?Hcur; simpl;
    rewrite Hp, Hm, Ht;
    (destruct (Z.ltb_spec k (L / C)); [|lia]);
    f_equal; f_equal; unfold Screen.DOWN; lia.
Qed.

Lemma paging_down_last_page (s : Screen.t) :
  on_page L C (L / C) s -> Screen.paging Screen.DOWN s = inr s.
Proof.
  intros (Hb & Hm & Hp & Hc & Ht).
  unfold Screen.paging, floordiv, pymod, bind, ret.
  rewrite Hm, Hp, Hc, Ht.
  destruct (Z.eqb_spec C 0) as [E|_]; [lia|].
  rewrite Z.add_0_r, Z.div_mul by lia.
  destruct (Z.eqb_spec (L / C + Screen.DOWN) (L / C)) as [E|_];
    [unfold Screen.DOWN in E; lia|].
  simpl. rewrite Hp, Z.ltb_irrefl. reflexivity.
Qed.

Lemma on_page_set_top (k k' : Z) (s : Screen.t) :
  on_page L C k s -> on_page L C k' (Screen.set_top (k' * C) s).
Proof. unfold on_page; simpl; tauto. Qed.

Lemma paging_down_n (n : nat) :
  forall (k : Z) (s : Screen.t),
    on_page L C k s -> 0 <= k -> k + Z.of_nat n <= L / C ->
    paging_n Screen.DOWN n s
    = inr (Screen.set_top ((k + Z.of_nat n) * C) s).
Proof.
  induction n as [|n IH]; intros k s Hs Hk Hn.
  - cbn [paging_n ret]. f_equal.
    destruct Hs as (_ & _ & _ & _ & Ht).
    rewrite Z.add_0_r, <- Ht. destruct s; reflexivity.
  - cbn [paging_n]. rewrite (paging_down_next_page k s Hs) by lia.
    unfold bind.
    rewrite (IH (k + 1)); [|eapply on_page_set_top; eauto|lia|lia].
    unfold Screen.set_top; simpl. do 2 f_equal. lia.
Qed.

End PageDownPartialLastPage.

(** From a new screen whose list length is not a multiple of [max_lines]:
    [k] page-downs with [k <= bottom // max_lines] put [top] at
    [k * max_lines], and on the last page a page-down returns the state as
    it is. *)
Lemma page_down_count_partial (items0 : list string) (C : Z) (k : nat) :
  let L := Z.of_nat (List.length items0) in
  0 < C -> L mod C <> 0 -> Z.of_nat k <= L / C ->
  exists s0 sk,
    Screen.init items0 C = inr s0 /\
    paging_n Screen.DOWN k s0 = inr sk /\
    sk = Screen.set_top (Z.of_nat k * C) s0 /\
    (Z.of_nat k = L / C -> Screen.paging Screen.DOWN sk = inr sk).
Proof.
  intros L HC HL Hk.
  destruct (init_viewport_ok items0 C HC) as (s0 & Hinit & _ & _).
  assert (H0 : on_page L C 0 s0).
  { revert Hinit. unfold Screen.init, floordiv, bind, ret.
    destruct (C =? 0); [discriminate|].
    intro E; injection E as <-. unfold on_page; simpl. fold L. lia. }
  exists s0, (Screen.set_top (Z.of_nat k * C) s0).
  split; [exact Hinit|]. split; [|split; [reflexivity|]].
  - rewrite (paging_down_n L C HC HL k 0 s0 H0) by lia. reflexivity.
  - intro E. apply (paging_down_last_page L C HC).
    rewrite E. eapply on_page_set_top; eauto.
Qed.

(** C5.  When the list length is a multiple of [max_lines] the count fails:
    with 14 records on 7 lines, [page] is [14 // 7 = 2]; after two page-downs
    [top] is 14 and the cursor is [-1], so the current page is again computed
    as [13 // 7 = 1] and a third page-down still moves [top], to 21.  Only the
    fourth press changes nothing. *)
Theorem page_down_full_last_page_overshoots :
  exists s0 s2 s3,
    Screen.init (records 14) 7 = inr s0 /\ Screen.page s0 = 14 / 7 /\
    paging_n Screen.DOWN 2 s0 = inr s2 /\
    Screen.paging Screen.DOWN s2 = inr s3 /\
    Screen.top s2 = 14 /\ Screen.current s2 = -1 /\
    Screen.top s3 = 21 /\ s3 <> s2 /\
    Screen.paging Screen.DOWN s3 = inr s3.
Proof.
  do 3 eexists.
  split; [reflexivity|]. split; [reflexivity|].
  split; [vm_compute; reflexivity|].
  split; [vm_compute; reflexivity|].
  repeat split; try reflexivity.
  intro E. apply (f_equal Screen.top) in E. discriminate E.
Qed.

(** ** Selection *)

(** C2 as written fails: two rows down the list ([top = 2]) with the cursor
    on the second visible row, Enter stores 1, not the list index 3. *)
Lemma select_stores_window_row_not_list_index :
  exists s0 s,
    Screen.init (records 10) 7 = inr s0 /\
    s = scroll_n Screen.UP 5 (scroll_n Screen.DOWN 8 s0) /\
    Screen.top s = 2 /\ Screen.current s = 1 /\
    Screen.item (Screen.select s) = 1 /\
    Screen.item (Screen.select s) <> Screen.top s + Screen.current s.
Proof.
  do 2 eexists. split; [reflexivity|]. split; [reflexivity|].
  repeat split; vm_compute; congruence.
Qed.

(** C2, amended.  Enter stores the cursor row [current] (the offset inside
    the window) in [item]; Escape stores [-1], the value that stands for no
    selection, whatever [item] held. *)
Theorem select_cancel_item (s : Screen.t) :
  Screen.item (Screen.select s) = Screen.current s /\
  Screen.item (Screen.cancel s) = -1.
Proof. split; reflexivity. Qed.

(** ** Filter and restore *)

(** C3.  [bottom] is assigned only by the constructor, so it stops being the
    length of the list on display as soon as a filter drops a record: on
    ["ax"; "b"; "cx"] the filter ["x"] leaves two records and [bottom = 3].
    After a second filter, restore brings back the two-record list, again
    with [bottom = 3]. *)
Theorem filter_leaves_bottom_stale :
  exists s0,
    Screen.init ["ax"; "b"; "cx"] 7 = inr s0 /\ bottom_ok s0 /\
    Screen.items (Screen.filter "x" s0) = ["ax"; "cx"] /\
    Screen.bottom (Screen.filter "x" s0) = 3 /\
    ~ bottom_ok (Screen.filter "x" s0) /\
    (let s3 := Screen.restore (Screen.filter "a" (Screen.filter "x" s0)) in
     Screen.items s3 = ["ax"; "cx"] /\ Screen.bottom s3 = 3 /\ ~ bottom_ok s3).
Proof.
  eexists. split; [reflexivity|].
  unfold bottom_ok.
  repeat split; try reflexivity; vm_compute; discriminate.
Qed.

(** C4.  Filter followed at once by restore gives back the list that was on
    display before the filter, and [bottom] is what it was; the backup slot
    is empty again. *)
Theorem filter_then_restore (search : string) (s : Screen.t) :
  Screen.items (Screen.restore (Screen.filter search s)) = Screen.items s /\
  Screen.bottom (Screen.restore (Screen.filter search s)) = Screen.bottom s /\
  Screen.backup (Screen.restore (Screen.filter search s)) = None.
Proof.
  rewrite restore_eq, filter_eq. simpl. auto.
Qed.

(** C6 as written fails: after the filters ["x"] and then ["a"] on
    ["ax"; "b"; "cx"], the backup is the list left by the first filter, not
    the list loaded at the start, and the first filter still shapes the list
    on display (["b"] contains the second text but is not shown after the
    filters ["x"], ["b"]). *)
Lemma second_filter_replaces_backup :
  exists s0,
    Screen.init ["ax"; "b"; "cx"] 7 = inr s0 /\
    Screen.backup (Screen.filter "x" s0) = Some ["ax"; "b"; "cx"] /\
    Screen.backup (Screen.filter "a" (Screen.filter "x" s0))
      = Some ["ax"; "cx"] /\
    Screen.backup (Screen.filter "a" (Screen.filter "x" s0))
      <> Some (Screen.items s0) /\
    Screen.items (Screen.filter "b" (Screen.filter "x" s0)) = [].
Proof.
  eexists. split; [reflexivity|].
  repeat split; try reflexivity. vm_compute. discriminate.
Qed.

Lemma filter_same_iff {A : Type} (f : A -> bool) (l : list A) :
  List.filter f l = l <-> forall x, In x l -> f x = true.
Proof.
  split.
  - intros E x Hx. apply (f_equal (@List.length A)) in E.
    apply filter_length_forallb in E.
    rewrite forallb_forall in E. apply E, Hx.
  - intro H. apply forallb_filter_id, forallb_forall, H.
Qed.

(** C6, amended.  A second filter works on the list left by the first one:
    the list on display keeps the records that contain both texts, and the
    backup becomes the list left by the first filter, which restore then
    brings back.  That backup is the list held before the first filter only
    when every record of it contained the first text. *)
Theorem second_filter_composes (a b : string) (s : Screen.t) :
  let s2 := Screen.filter b (Screen.filter a s) in
  Screen.items s2
    = List.filter (contains b) (List.filter (contains a) (Screen.items s)) /\
  Screen.backup s2 = Some (List.filter (contains a) (Screen.items s)) /\
  Screen.items (Screen.restore s2)
    = List.filter (contains a) (Screen.items s) /\
  (Screen.backup s2 = Some (Screen.items s) <->
   forall x, In x (Screen.items s) -> contains a x = true).
Proof.
  cbv zeta. rewrite restore_eq, !filter_eq. simpl.
  repeat split; try reflexivity.
  - intro E. injection E as E. apply filter_same_iff. exact E.
  - intro H. f_equal. apply filter_same_iff. exact H.
Qed.

(** C9.  The empty text is contained in every record, so the filter branch
    run with it keeps the whole list, in order; the branch raises nothing and
    sets the old list aside as for any other text. *)
Theorem filter_empty_text (s : Screen.t) :
  Screen.items (Screen.filter "" s) = Screen.items s /\
  Screen.backup (Screen.filter "" s) = Some (Screen.items s) /\
  Screen.input_step 102 "" s = inr (Some (Screen.filter "" s)).
Proof.
  split; [|split].
  - rewrite filter_eq. simpl. apply filter_all, contains_empty.
  - rewrite filter_eq. reflexivity.
  - reflexivity.
Qed.

(** ** Construction *)


(** On a terminal the constructor makes the assignments modelled by
    [Screen.init] with the row count of the screen. *)
Lemma create_on_terminal (LINES COLS : positive) (items0 : list string) :
  Screen.create (Screen.terminal_of LINES COLS) items0
  = Screen.init items0 (Z.pos LINES).
Proof. reflexivity. Qed.


(** ** Scrolling at the ends of the list *)

(** C8 as written fails: with the window on the last seven of ten records
    ([top + max_lines = bottom]) and the cursor on its first row, a line-down
    moves the cursor. *)
Lemma scroll_down_moves_cursor_in_last_window :
  exists s0 s,
    Screen.init (records 10) 7 = inr s0 /\
    s = scroll_n Screen.UP 6 (scroll_n Screen.DOWN 9 s0) /\
    Screen.top s + Screen.max_lines s = Screen.bottom s /\
    Screen.current s = 0 /\
    Screen.current (Screen.scroll Screen.DOWN s) = 1 /\
    Screen.scroll Screen.DOWN s <> s.
Proof.
  do 2 eexists. split; [reflexivity|]. split; [reflexivity|].
  repeat split. vm_compute. discriminate.
Qed.

(** C8, amended.  Line-up with [top = 0] and [current = 0] returns the state
    as it is, however often it is repeated.  Line-down does so when the
    cursor is on the last row of the window ([current = max_lines - 1]) and
    the window ends at the end of the list ([top + max_lines = bottom]), or
    when the list is exactly one window long ([bottom = max_lines]), the
    cursor is on its last record and [top] is not negative. *)
Theorem scroll_noop_at_ends (s : Screen.t) (direction : Z) (n : nat)
  (H : (direction = Screen.UP /\ Screen.top s = 0 /\ Screen.current s = 0) \/
       (direction = Screen.DOWN /\
        Screen.current s = Screen.max_lines s - 1 /\
        Screen.top s + Screen.max_lines s = Screen.bottom s) \/
       (direction = Screen.DOWN /\
        Screen.bottom s = Screen.max_lines s /\
        Screen.current s = Screen.bottom s - 1 /\ 0 <= Screen.top s)) :
  scroll_n direction n s = s.
Proof.
  assert (H1 : Screen.scroll direction s = s).
  { destruct H as [(-> & Ht & Hc) | [(-> & Hc & Ht) | (-> & Hb & Hc & Ht)]];
      scroll_cases; try reflexivity; lia. }
  unfold scroll_n. induction n as [|n IH]; simpl.
  - reflexivity.
  - rewrite IH. exact H1.
Qed.

Lemma scroll_noop_at_ends_witness :
  let s := Screen.mk (records 10) None (-1) 7 3 10 6 1 in
  (Screen.current s = Screen.max_lines s - 1 /\
   Screen.top s + Screen.max_lines s = Screen.bottom s) /\
  scroll_n Screen.DOWN 4 s = s.
Proof.
  split.
  - split; reflexivity.
  - apply scroll_noop_at_ends. right; left. repeat split.
Defined.

(** ** What each key leaves alone *)

(** C10.  [scroll] and [paging] return a state with the same list, backup,
    [bottom] and [item] ([paging] returns unless [max_lines] is 0, when its
    division raises); the filter and restore branches keep [top], [current]
    and [item]; Enter and Escape keep every field but [item]. *)
Theorem keys_leave_other_fields (direction : Z) (search : string)
    (s : Screen.t) :
  (let s' := Screen.scroll direction s in
   Screen.items s' = Screen.items s /\ Screen.backup s' = Screen.backup s /\
   Screen.bottom s' = Screen.bottom s /\ Screen.item s' = Screen.item s) /\
  match Screen.paging direction s with
  | inr s' =>
      Screen.items s' = Screen.items s /\ Screen.backup s' = Screen.backup s /\
      Screen.bottom s' = Screen.bottom s /\ Screen.item s' = Screen.item s
  | inl _ => Screen.max_lines s = 0
  end /\
  (let s' := Screen.filter search s in
   Screen.top s' = Screen.top s /\ Screen.current s' = Screen.current s /\
   Screen.item s' = Screen.item s) /\
  (let s' := Screen.restore s in
   Screen.top s' = Screen.top s /\ Screen.current s' = Screen.current s /\
   Screen.item s' = Screen.item s) /\
  (let s' := Screen.select s in
   Screen.top s' = Screen.top s /\ Screen.current s' = Screen.current s /\
   Screen.bottom s' = Screen.bottom s /\ Screen.items s' = Screen.items s /\
   Screen.backup s' = Screen.backup s /\ Screen.page s' = Screen.page s /\
   Screen.max_lines s' = Screen.max_lines s) /\
  (let s' := Screen.cancel s in
   Screen.top s' = Screen.top s /\ Screen.current s' = Screen.current s /\
   Screen.bottom s' = Screen.bottom s /\ Screen.items s' = Screen.items s /\
   Screen.backup s' = Screen.backup s /\ Screen.page s' = Screen.page s /\
   Screen.max_lines s' = Screen.max_lines s).
Proof.
  split; [|split; [|split; [|split; [|split]]]]; cbv zeta.
  - unfold Screen.scroll.
    repeat match goal with
      | |- context [if ?b then _ else _] => destruct b
      end; simpl; auto.
  - unfold Screen.paging, floordiv, pymod, bind, ret, raise.
    destruct (Z.eqb_spec (Screen.max_lines s) 0) as [E|E]; [exact E|].
    repeat match goal with
      | |- context [if ?b then _ else _] => destruct b
      end; simpl; auto.
  - rewrite filter_eq. simpl. auto.
  - rewrite restore_eq. destruct (Screen.backup s); simpl; auto.
  - simpl. repeat split.
  - simpl. repeat split.
Qed.

(** * Further properties of the code *)

(** ** Line keys *)

(** X1.  Any script of line keys, whatever integers stand for the
    directions, keeps the window inside the list and the cursor on a record
    of the window. *)
Theorem scroll_script_keeps_viewport (directions : list Z) (s : Screen.t) :
  viewport_ok s -> viewport_ok (scroll_all directions s).
Proof.
  revert s. induction directions as [|d rest IH]; intros s H; simpl.
  - exact H.
  - apply IH, scroll_keeps_viewport_ok, H.
Qed.

Lemma scroll_script_keeps_viewport_witness :
  let s := Screen.mk (records 10) None (-1) 7 0 10 0 1 in
  viewport_ok s /\ viewport_ok (scroll_all [1; 1; -1; 1; -1; -1; -1; 5] s).
Proof.
  assert (H : viewport_ok (Screen.mk (records 10) None (-1) 7 0 10 0 1)).
  { unfold viewport_ok; simpl; lia. }
  split; [exact H|].
  apply (scroll_script_keeps_viewport [1; 1; -1; 1; -1; -1; -1; 5] _ H).
Defined.

(** One line key moves the record under the cursor by one place and stops
    at the two ends of the list. *)
Lemma scroll_cursor_index_step (s : Screen.t) :
  viewport_ok s -> 0 < Screen.bottom s ->
  cursor_index (Screen.scroll Screen.UP s) = Z.max (cursor_index s - 1) 0 /\
  cursor_index (Screen.scroll Screen.DOWN s)
  = Z.min (cursor_index s + 1) (Screen.bottom s - 1).
Proof.
  unfold viewport_ok, cursor_index. intros (Ht & Hc & Hb) Hpos.
  specialize (Hb Hpos).
  split; scroll_cases; simpl; lia.
Qed.

Lemma scroll_keeps_bottom (direction : Z) (s : Screen.t) :
  Screen.bottom (Screen.scroll direction s) = Screen.bottom s.
Proof.
  unfold Screen.scroll.
  repeat match goal with
    | |- context [if ?b then _ else _] => destruct b
    end; reflexivity.
Qed.

Lemma scroll_n_S (direction : Z) (n : nat) (s : Screen.t) :
  scroll_n direction (S n) s
  = Screen.scroll direction (scroll_n direction n s).
Proof. reflexivity. Qed.

Lemma scroll_n_keeps_bottom (direction : Z) (n : nat) (s : Screen.t) :
  Screen.bottom (scroll_n direction n s) = Screen.bottom s.
Proof.
  induction n as [|n IH]; [reflexivity|].
  rewrite scroll_n_S, scroll_keeps_bottom. exact IH.
Qed.

(** X2.  On a list that is not empty, [n] line-downs move the record under
    the cursor [n] places down, stopping on the last record, and [n] line-ups
    move it [n] places up, stopping on the first. *)
Theorem scroll_n_cursor_index (n : nat) (s : Screen.t) :
  viewport_ok s -> 0 < Screen.bottom s ->
  cursor_index (scroll_n Screen.DOWN n s)
  = Z.min (cursor_index s + Z.of_nat n) (Screen.bottom s - 1) /\
  cursor_index (scroll_n Screen.UP n s)
  = Z.max (cursor_index s - Z.of_nat n) 0.
Proof.
  intros Hok Hpos.
  assert (Hin : 0 <= cursor_index s < Screen.bottom s).
  { unfold viewport_ok, cursor_index in *. lia. }
  induction n as [|n [IHd IHu]].
  - unfold scroll_n; simpl. lia.
  - rewrite !scroll_n_S. split.
    + pose proof (scroll_n_keeps_viewport_ok Screen.DOWN n s Hok) as Hn.
      pose proof (scroll_n_keeps_bottom Screen.DOWN n s) as Hb.
      destruct (scroll_cursor_index_step _ Hn) as [_ E]; [lia|].
      rewrite E, IHd, Hb. lia.
    + pose proof (scroll_n_keeps_viewport_ok Screen.UP n s Hok) as Hn.
      pose proof (scroll_n_keeps_bottom Screen.UP n s) as Hb.
      destruct (scroll_cursor_index_step _ Hn) as [E _]; [lia|].
      rewrite E, IHu. lia.
Qed.

Lemma scroll_n_cursor_index_witness :
  let s := Screen.mk (records 10) None (-1) 7 0 10 0 1 in
  (viewport_ok s /\ 0 < Screen.bottom s) /\
  cursor_index (scroll_n Screen.DOWN 12 s) = 9 /\
  cursor_index (scroll_n Screen.UP 12 s) = 0.
Proof.
  assert (H : viewport_ok (Screen.mk (records 10) None (-1) 7 0 10 0 1)).
  { unfold viewport_ok; simpl; lia. }
  split; [split; [exact H|reflexivity]|].
  apply (scroll_n_cursor_index 12 _ H). reflexivity.
Defined.

(** ** Page keys *)

(** [paging] without the error plumbing, for a line count other than 0. *)
Lemma paging_eq (direction : Z) (s : Screen.t) :
  Screen.max_lines s <> 0 ->
  Screen.paging direction s =
  inr (let current_page :=
         (Screen.top s + Screen.current s) / Screen.max_lines s in
       let s1 :=
         if current_page + direction =? Screen.page s then
           Screen.set_current
             (Z.min (Screen.current s)
                    (Screen.bottom s mod Screen.max_lines s - 1)) s
         else s in
       if (direction =? Screen.UP) && (0 <? current_page) then
         Screen.set_top (Z.max 0 (Screen.top s1 - Screen.max_lines s1)) s1
       else if (direction =? Screen.DOWN) && (current_page <? Screen.page s1)
       then Screen.set_top (Screen.top s1 + Screen.max_lines s1) s1
       else s1).
Proof.
  intro H. unfold Screen.paging, floordiv, pymod, bind, ret, raise.
  destruct (Z.eqb_spec (Screen.max_lines s) 0) as [E|_]; [contradiction|].
  cbv zeta.
  destruct ((Screen.top s + Screen.current s) / Screen.max_lines s
            + direction =? Screen.page s);
    repeat match goal with
      | |- context [if ?b then _ else _] => destruct b
      end; reflexivity.
Qed.

(** The page of the cursor is never past the last one while the cursor is
    on a record. *)
Lemma current_page_le_page (s : Screen.t) :
  viewport_ok s -> Screen.page s = Screen.bottom s / Screen.max_lines s ->
  0 <= (Screen.top s + Screen.current s) / Screen.max_lines s
    <= Screen.page s.
Proof.
  unfold viewport_ok. intros (Ht & Hc & Hb) Hp. rewrite Hp. split.
  - apply Z.div_pos; lia.
  - destruct (Z.eq_dec (Screen.bottom s) 0) as [E|E].
    + assert (Ht0 : Screen.top s = 0) by lia.
      rewrite E, Ht0, Z.div_small by lia. reflexivity.
    + apply Z.div_le_mono; lia.
Qed.

Lemma paging_up_viewport_step (s : Screen.t) :
  viewport_ok s -> Screen.page s = Screen.bottom s / Screen.max_lines s ->
  exists s',
    Screen.paging Screen.UP s = inr s' /\ viewport_ok s' /\
    Screen.current s' = Screen.current s /\
    Screen.top s' =
      (if 0 <? (Screen.top s + Screen.current s) / Screen.max_lines s
       then Z.max 0 (Screen.top s - Screen.max_lines s)
       else Screen.top s) /\
    Screen.page s' = Screen.bottom s' / Screen.max_lines s'.
Proof.
  intros Hok Hp.
  pose proof (current_page_le_page s Hok Hp) as Hcp.
  destruct Hok as (Ht & Hc & Hb).
  rewrite paging_eq by lia. eexists. split; [reflexivity|].
  cbv zeta. unfold viewport_ok, Screen.UP, Screen.DOWN.
  guard_cases; simpl; try lia; repeat split; try lia; intros; lia.
Qed.

(** X3.  Page-up keeps the window inside the list and the cursor on a
    record: it leaves the cursor row alone and moves [top] back by
    [max_lines], stopping at 0, when the cursor is past the first page. *)
Theorem paging_up_keeps_viewport (s : Screen.t) :
  viewport_ok s -> Screen.page s = Screen.bottom s / Screen.max_lines s ->
  exists s',
    Screen.paging Screen.UP s = inr s' /\ viewport_ok s' /\
    Screen.current s' = Screen.current s /\
    Screen.top s' =
      (if 0 <? (Screen.top s + Screen.current s) / Screen.max_lines s
       then Z.max 0 (Screen.top s - Screen.max_lines s)
       else Screen.top s).
Proof.
  intros Hok Hp.
  destruct (paging_up_viewport_step s Hok Hp) as (s' & E & H1 & H2 & H3 & _).
  exists s'. auto.
Qed.

Lemma paging_up_keeps_viewport_witness :
  let s := Screen.mk (records 10) None (-1) 7 3 10 6 1 in
  (viewport_ok s /\
   Screen.page s = Screen.bottom s / Screen.max_lines s) /\
  exists s', Screen.paging Screen.UP s = inr s' /\ viewport_ok s' /\
             Screen.current s' = 6 /\ Screen.top s' = 0.
Proof.
  assert (H : viewport_ok (Screen.mk (records 10) None (-1) 7 3 10 6 1)).
  { unfold viewport_ok; simpl; lia. }
  split; [split; [exact H|reflexivity]|].
  apply (paging_up_keeps_viewport _ H). reflexivity.
Defined.

(** One page key on a window that starts on a page boundary, the last page
    of the list being partial. *)
Lemma paging_aligned_step (direction : Z) (s : Screen.t) :
  viewport_ok s -> page_aligned s ->
  Screen.page s = Screen.bottom s / Screen.max_lines s ->
  Screen.bottom s mod Screen.max_lines s <> 0 ->
  exists s',
    Screen.paging direction s = inr s' /\
    viewport_ok s' /\ page_aligned s' /\
    Screen.page s' = Screen.page s /\ Screen.bottom s' = Screen.bottom s /\
    Screen.max_lines s' = Screen.max_lines s.
Proof.
  intros (Ht & Hc & Hb) (k & Hk & Htop) Hp Hr.
  assert (HC : 0 < Screen.max_lines s) by lia.
  rewrite paging_eq by lia. eexists. split; [reflexivity|].
  cbv zeta.
  assert (Hcp : (Screen.top s + Screen.current s) / Screen.max_lines s = k).
  { rewrite Htop, Z.div_add_l, Z.div_small by lia. lia. }
  rewrite Hcp.
  pose proof (Z.div_mod (Screen.bottom s) (Screen.max_lines s)) as Hdm.
  pose proof (Z.mod_pos_bound (Screen.bottom s) (Screen.max_lines s) HC) as Hm.
  rewrite <- Hp in Hdm.
  set (C := Screen.max_lines s) in *.
  set (r := Screen.bottom s mod C) in *.
  set (P := Screen.page s) in *.
  assert (Hbot : Screen.bottom s = C * P + r) by (apply Hdm; lia).
  assert (Hkp : k <= P) by nia.
  unfold viewport_ok, page_aligned, Screen.UP, Screen.DOWN.
  guard_cases; simpl; fold C; fold P.
  all: repeat split; try lia; try nia.
  all: try (exists k; split; [lia|assumption]).
  all: try (exists (k - 1); split; [lia|]; rewrite Htop; nia).
  all: try (exists (k + 1); split; [lia|]; rewrite Htop; nia).
Qed.

(** X4.  When the length of the list is not a multiple of [max_lines], any
    script of page keys run on a window that starts on a page boundary (as
    the new screen does) returns, and leaves the window on a page boundary
    inside the list and the cursor on a record. *)
Theorem paging_script_keeps_viewport (directions : list Z) (s : Screen.t) :
  viewport_ok s -> page_aligned s ->
  Screen.page s = Screen.bottom s / Screen.max_lines s ->
  Screen.bottom s mod Screen.max_lines s <> 0 ->
  exists s',
    paging_all directions s = inr s' /\ viewport_ok s' /\ page_aligned s'.
Proof.
  revert s. induction directions as [|d rest IH]; intros s Hok Hal Hp Hr.
  - exists s. split; [reflexivity|split; assumption].
  - destruct (paging_aligned_step d s Hok Hal Hp Hr)
      as (s1 & E & Hok1 & Hal1 & Hp1 & Hb1 & Hc1).
    cbn [paging_all]. rewrite E. unfold bind.
    apply IH; try assumption.
    + rewrite Hp1, Hb1, Hc1. assumption.
    + rewrite Hb1, Hc1. assumption.
Qed.

Lemma paging_script_keeps_viewport_witness :
  let s := Screen.mk (records 10) None (-1) 7 0 10 0 1 in
  (viewport_ok s /\ page_aligned s /\
   Screen.page s = Screen.bottom s / Screen.max_lines s /\
   Screen.bottom s mod Screen.max_lines s <> 0) /\
  exists s',
    paging_all [1; 1; -1; 1; -1; -1] s = inr s' /\
    viewport_ok s' /\ page_aligned s'.
Proof.
  assert (H : viewport_ok (Screen.mk (records 10) None (-1) 7 0 10 0 1)).
  { unfold viewport_ok; simpl; lia. }
  assert (A : page_aligned (Screen.mk (records 10) None (-1) 7 0 10 0 1)).
  { exists 0. split; [lia|reflexivity]. }
  split.
  - split; [exact H|split; [exact A|split; [reflexivity|discriminate]]].
  - apply (paging_script_keeps_viewport [1; 1; -1; 1; -1; -1] _ H A).
    + reflexivity.
    + discriminate.
Defined.

(** X5.  Page-down followed by page-up gives back the state, as long as the
    page-down does not land on the page numbered [page]: the first adds
    [max_lines] to [top], the second takes it off, and neither touches the
    cursor row. *)
Theorem paging_down_then_up (s : Screen.t) :
  0 < Screen.max_lines s -> 0 <= Screen.top s -> 0 <= Screen.current s ->
  (Screen.top s + Screen.current s) / Screen.max_lines s + 1 < Screen.page s ->
  exists s1,
    Screen.paging Screen.DOWN s = inr s1 /\
    Screen.top s1 = Screen.top s + Screen.max_lines s /\
    Screen.current s1 = Screen.current s /\
    Screen.paging Screen.UP s1 = inr s.
Proof.
  intros HC Ht Hc Hp.
  assert (Hcp : 0 <= (Screen.top s + Screen.current s) / Screen.max_lines s)
    by (apply Z.div_pos; lia).
  exists (Screen.set_top (Screen.top s + Screen.max_lines s) s).
  split; [|split; [reflexivity|split; [reflexivity|]]].
  - rewrite paging_eq by lia. cbv zeta. unfold Screen.UP, Screen.DOWN.
    guard_cases; try lia; reflexivity.
  - rewrite paging_eq by (simpl; lia). cbv zeta. simpl.
    replace (Screen.top s + Screen.max_lines s + Screen.current s)
      with (Screen.top s + Screen.current s + 1 * Screen.max_lines s) by lia.
    rewrite Z.div_add by lia.
    unfold Screen.UP, Screen.DOWN.
    guard_cases; try lia; simpl.
    replace (Z.max 0 (Screen.top s + Screen.max_lines s - Screen.max_lines s))
      with (Screen.top s) by lia.
    destruct s; reflexivity.
Qed.

Lemma paging_down_then_up_witness :
  let s := Screen.mk (records 30) None (-1) 7 2 30 3 4 in
  (0 < Screen.max_lines s /\ 0 <= Screen.top s /\ 0 <= Screen.current s /\
   (Screen.top s + Screen.current s) / Screen.max_lines s + 1
   < Screen.page s) /\
  exists s1,
    Screen.paging Screen.DOWN s = inr s1 /\
    Screen.top s1 = 9 /\ Screen.current s1 = 3 /\
    Screen.paging Screen.UP s1 = inr s.
Proof.
  split; [repeat split; vm_compute; (reflexivity || discriminate)|].
  apply (paging_down_then_up (Screen.mk (records 30) None (-1) 7 2 30 3 4));
    vm_compute; (reflexivity || discriminate).
Defined.

(** X6.  Page-up changes nothing while the cursor is on the first page
    ([top + current < max_lines]), and page-down changes nothing once the
    page of the cursor is [page] or more. *)
Theorem paging_noop_at_ends (direction : Z) (s : Screen.t)
  (H : (direction = Screen.UP /\ 0 < Screen.max_lines s /\
        0 <= Screen.top s + Screen.current s < Screen.max_lines s /\
        Screen.page s <> -1) \/
       (direction = Screen.DOWN /\ Screen.max_lines s <> 0 /\
        Screen.page s
        <= (Screen.top s + Screen.current s) / Screen.max_lines s)) :
  Screen.paging direction s = inr s.
Proof.
  destruct H as [(-> & HC & Hc & Hp) | (-> & HC & Hp)].
  - rewrite paging_eq by lia. cbv zeta.
    rewrite Z.div_small by lia.
    unfold Screen.UP, Screen.DOWN. guard_cases; try lia; reflexivity.
  - rewrite paging_eq by lia. cbv zeta.
    unfold Screen.UP, Screen.DOWN. guard_cases; try lia; reflexivity.
Qed.

Lemma paging_noop_at_ends_witness :
  let s := Screen.mk (records 10) None (-1) 7 7 10 2 1 in
  (Screen.max_lines s <> 0 /\
   Screen.page s
   <= (Screen.top s + Screen.current s) / Screen.max_lines s) /\
  Screen.paging Screen.DOWN s = inr s.
Proof.
  split; [split; discriminate|].
  apply paging_noop_at_ends. right. repeat split; discriminate.
Defined.

(** ** The key loop *)




Section KeyStep.

(** A property of the state that every branch of the loop keeps, and that
    rules out a line count of 0. *)
Variable Inv : Screen.t -> Prop.
Hypothesis Inv_lines : forall s, Inv s -> Screen.max_lines s <> 0.
Hypothesis Inv_scroll : forall d s, Inv s -> Inv (Screen.scroll d s).
Hypothesis Inv_paging :
  forall d s s', Inv s -> Screen.paging d s = inr s' -> Inv s'.
Hypothesis Inv_restore : forall s, Inv s -> Inv (Screen.restore s).
Hypothesis Inv_filter : forall search s, Inv s -> Inv (Screen.filter search s).
Hypothesis Inv_select : forall s, Inv s -> Inv (Screen.select s).
Hypothesis Inv_cancel : forall s, Inv s -> Inv (Screen.cancel s).


End KeyStep.

Section KeyLoop.

Variable loads : string -> result (list (result (string * string))).
Variable accepts : Screen.draw -> bool.

(** A property of the state kept by the turn of every key among those that
    are [allowed], the turn raising nothing after [display()]. *)
Variable Inv : Screen.t -> Prop.
Variable allowed : Z -> Prop.
Hypothesis step_keeps :
  forall ch search s,
    allowed ch -> Inv s ->
    exists o,
      Screen.input_step ch search s = inr o /\
      match o with
      | Some s' => Inv s'
      | None => True
      end.


End KeyLoop.








(** ** The lists *)



Lemma subseq_filter {A : Type} (f : A -> bool) (l : list A) :
  subseq (List.filter f l) l.
Proof.
  induction l as [|x l IH]; simpl.
  - constructor.
  - destruct (f x); constructor; assumption.
Qed.



(** X10.  The key [q] ends the loop: the keys that follow it in a script
    are not read, and the state is the one reached just before it. *)
Theorem keys_after_quit_are_ignored
    (loads : string -> result (list (result (string * string))))
    (accepts : Screen.draw -> bool)
    (before after : list (Z * string)) (search : string) (s : Screen.t) :
  Screen.input_stream loads accepts (before ++ (113, search) :: after) s
  = Screen.input_stream loads accepts before s.
Proof.
  revert s. induction before as [|[ch txt] rest IH]; intro s.
  - reflexivity.
  - cbn [app Screen.input_stream].
    destruct (Screen.display_run loads accepts s) as [e|rows]; cbn [bind];
      [reflexivity|].
    destruct (Screen.input_step ch txt s) as [e|[s'|]]; cbn [bind].
    + reflexivity.
    + apply IH.
    + reflexivity.
Qed.

(** [prefix] and [contains] in terms of concatenation. *)
Lemma prefix_spec (s1 s2 : string) :
  prefix s1 s2 = true <-> exists post, s2 = (s1 ++ post)%string.
Proof.
  revert s2. induction s1 as [|a s1 IH]; intro s2; simpl.
  - destruct s2; simpl; split; eauto.
  - destruct s2 as [|b s2]; simpl.
    + split; [discriminate|]. intros (post & E). discriminate E.
    + destruct (Ascii.ascii_dec a b) as [->|N].
      * rewrite IH. split; intros (post & E); exists post.
        -- rewrite E. reflexivity.
        -- injection E as E. exact E.
      * split; [discriminate|]. intros (post & E).
        injection E as E1 E2. congruence.
Qed.

Lemma contains_spec (search item : string) :
  contains search item = true <->
  exists pre post, item = (pre ++ search ++ post)%string.
Proof.
  split.
  - induction item as [|c rest IH]; cbn [contains]; intro H.
    + rewrite orb_false_r in H. apply prefix_spec in H.
      destruct H as (post & E). exists ""%string, post. exact E.
    + apply orb_true_iff in H. destruct H as [H|H].
      * apply prefix_spec in H. destruct H as (post & E).
        exists ""%string, post. exact E.
      * destruct (IH H) as (pre & post & E).
        exists (String c pre), post. simpl. rewrite E. reflexivity.
  - intros (pre & post & E). subst item.
    induction pre as [|c pre IH].
    + assert (P : prefix search (search ++ post) = true)
        by (apply prefix_spec; eauto).
      cbn [append]. destruct (search ++ post)%string; cbn [contains];
        rewrite P; reflexivity.
    + change (String c pre ++ search ++ post)%string
        with (String c (pre ++ search ++ post)).
      cbn [contains]. rewrite IH. apply orb_true_r.
Qed.

(** X11.  The filter keeps exactly the records in which the text typed
    occurs as a contiguous block, and keeps them in the order they had. *)
Theorem filter_shows_matching_records (search : string) (s : Screen.t) :
  subseq (Screen.items (Screen.filter search s)) (Screen.items s) /\
  forall x,
    In x (Screen.items (Screen.filter search s)) <->
    In x (Screen.items s) /\
    exists pre post, x = (pre ++ search ++ post)%string.
Proof.
  rewrite filter_eq. simpl. split.
  - apply subseq_filter.
  - intro x. rewrite filter_In, contains_spec. reflexivity.
Qed.

Lemma filter_filter_comm {A : Type} (f g : A -> bool) (l : list A) :
  List.filter f (List.filter g l) = List.filter g (List.filter f l).
Proof.
  induction l as [|x l IH]; simpl; [reflexivity|].
  destruct (f x) eqn:F, (g x) eqn:G; simpl; rewrite ?F, ?G, IH; reflexivity.
Qed.

Lemma filter_filter_same {A : Type} (f : A -> bool) (l : list A) :
  List.filter f (List.filter f l) = List.filter f l.
Proof.
  induction l as [|x l IH]; simpl; [reflexivity|].
  destruct (f x) eqn:F; simpl; rewrite ?F, IH; reflexivity.
Qed.

(** X12.  On the list on display, two filters give the same list in either
    order, and a filter repeated with the same text changes nothing more. *)
Theorem filters_commute (a b : string) (s : Screen.t) :
  Screen.items (Screen.filter a (Screen.filter b s))
  = Screen.items (Screen.filter b (Screen.filter a s)) /\
  Screen.items (Screen.filter a (Screen.filter a s))
  = Screen.items (Screen.filter a s).
Proof.
  rewrite !filter_eq. simpl. split.
  - apply filter_filter_comm.
  - apply filter_filter_same.
Qed.

(** X13.  On a screen where [bottom] is the length of the list, it is still
    so after a filter exactly when every record contains the text typed; any
    record left out makes [bottom] larger than the list on display. *)
Theorem filter_keeps_bottom_iff_all_match (search : string) (s : Screen.t) :
  bottom_ok s ->
  (bottom_ok (Screen.filter search s) <->
   forall x, In x (Screen.items s) -> contains search x = true) /\
  Z.of_nat (List.length (Screen.items (Screen.filter search s)))
  <= Screen.bottom (Screen.filter search s).
Proof.
  unfold bottom_ok. intro H. rewrite filter_eq. simpl. rewrite H.
  pose proof (filter_length_le (contains search) (Screen.items s)) as Hle.
  split; [split|lia].
  - intros E x Hx.
    assert (E' : List.length (List.filter (contains search) (Screen.items s))
                 = List.length (Screen.items s)) by lia.
    apply filter_length_forallb in E'.
    rewrite forallb_forall in E'. apply E', Hx.
  - intro Hall. rewrite forallb_filter_id; [reflexivity|].
    apply forallb_forall. exact Hall.
Qed.

Lemma filter_keeps_bottom_iff_all_match_witness :
  let s := Screen.mk ["ax"; "b"; "cx"] None (-1) 7 0 3 0 0 in
  bottom_ok s /\
  (bottom_ok (Screen.filter "x" s) <->
   forall x, In x (Screen.items s) -> contains "x" x = true) /\
  Z.of_nat (List.length (Screen.items (Screen.filter "x" s)))
  <= Screen.bottom (Screen.filter "x" s).
Proof.
  split; [reflexivity|].
  apply (filter_keeps_bottom_iff_all_match "x"
           (Screen.mk ["ax"; "b"; "cx"] None (-1) 7 0 3 0 0)).
  reflexivity.
Defined.

(** ** What is drawn *)

(** The slice [l[lo:lo + n]] read by position, for a start and a width that
    are not negative. *)
Lemma nth_error_pyslice {A : Type} (l : list A) (lo n : Z) (i : nat) :
  0 <= lo -> 0 <= n ->
  nth_error (pyslice l lo (lo + n)) i
  = if Z.of_nat i <? n then nth_error l (Z.to_nat lo + i) else None.
Proof.
  intros Hlo Hn. unfold pyslice, slice_bound.
  destruct (Z.ltb_spec lo 0) as [?|_]; [lia|].
  destruct (Z.ltb_spec (lo + n) 0) as [?|_]; [lia|].
  rewrite nth_error_firstn, nth_error_skipn.
  set (len := Z.of_nat (List.length l)).
  assert (Hlen : List.length l = Z.to_nat len) by (unfold len; lia).
  destruct (Nat.ltb_spec i (Z.to_nat (Z.min (lo + n) len - Z.min lo len)));
    destruct (Z.ltb_spec (Z.of_nat i) n).
  - f_equal. lia.
  - lia.
  - symmetry. apply nth_error_None. lia.
  - reflexivity.
Qed.

Lemma length_pyslice {A : Type} (l : list A) (lo n : Z) :
  0 <= lo -> 0 <= n ->
  (List.length (pyslice l lo (lo + n)) <= Z.to_nat n)%nat /\
  (List.length (pyslice l lo (lo + n)) <= List.length l)%nat.
Proof.
  intros Hlo Hn. unfold pyslice, slice_bound.
  destruct (Z.ltb_spec lo 0) as [?|_]; [lia|].
  destruct (Z.ltb_spec (lo + n) 0) as [?|_]; [lia|].
  rewrite length_firstn, length_skipn. lia.
Qed.

Lemma nth_error_enumerate_from {A : Type} (l : list A) :
  forall (start : Z) (i : nat),
    nth_error (enumerate_from start l) i
    = option_map (fun x => (start + Z.of_nat i, x)) (nth_error l i).
Proof.
  induction l as [|x l IH]; intros start i.
  - destruct i; reflexivity.
  - destruct i as [|i]; cbn [enumerate_from nth_error].
    + simpl. rewrite Z.add_0_r. reflexivity.
    + rewrite IH. destruct (nth_error l i); simpl; [|reflexivity].
      do 2 f_equal. lia.
Qed.

Lemma length_enumerate_from {A : Type} (l : list A) (start : Z) :
  List.length (enumerate_from start l) = List.length l.
Proof.
  revert start. induction l as [|x l IH]; intro start; simpl; auto.
Qed.

(** X14.  With no record opened, [display] writes the records from index
    [top] on, one per line from line 0 and at column 0, at most [max_lines]
    of them and none past the end of the list; the line of the cursor row is
    written in pair 2 and every other line in pair 1. *)
Theorem display_list_mode
    (loads : string -> option (list (string * string))) (s : Screen.t) :
  Screen.item s = -1 -> 0 <= Screen.top s -> 0 <= Screen.max_lines s ->
  exists rows,
    Screen.display loads s = Some rows /\
    (List.length rows <= Z.to_nat (Screen.max_lines s))%nat /\
    forall i : nat,
      nth_error rows i =
      if Z.of_nat i <? Screen.max_lines s then
        option_map
          (fun text =>
             Screen.addstr (Z.of_nat i) 0 text
               (if Z.of_nat i =? Screen.current s then 2 else 1))
          (nth_error (Screen.items s) (Z.to_nat (Screen.top s) + i))
      else None.
Proof.
  intros Hi Ht HC. unfold Screen.display. rewrite Hi. cbn [Z.eqb negb].
  eexists. split; [reflexivity|]. split.
  - unfold Screen.list_rows, enumerate.
    rewrite length_map, length_enumerate_from.
    apply length_pyslice; assumption.
  - intro i. unfold Screen.list_rows, enumerate.
    rewrite nth_error_map, nth_error_enumerate_from, nth_error_pyslice
      by assumption.
    destruct (Z.of_nat i <? Screen.max_lines s); [|reflexivity].
    destruct (nth_error (Screen.items s) (Z.to_nat (Screen.top s) + i));
      simpl; [|reflexivity].
    destruct (Z.of_nat i =? Screen.current s); reflexivity.
Qed.

Lemma display_list_mode_witness :
  let s := Screen.mk ["ax"; "b"; "cx"] None (-1) 2 1 3 1 1 in
  (Screen.item s = -1 /\ 0 <= Screen.top s /\ 0 <= Screen.max_lines s) /\
  exists rows,
    Screen.display (fun _ => None) s = Some rows /\
    (List.length rows <= 2)%nat /\
    nth_error rows 1 = Some (Screen.addstr 1 0 "cx" 2).
Proof.
  split; [repeat split; discriminate|].
  destruct (display_list_mode (fun _ => None)
              (Screen.mk ["ax"; "b"; "cx"] None (-1) 2 1 3 1 1))
    as (rows & E & L & N); try reflexivity; try discriminate.
  exists rows. split; [exact E|]. split; [exact L|]. exact (N 1%nat).
Defined.





(** The loop of the list branch makes its calls until one is refused. *)
Lemma list_run_eq (accepts : Screen.draw -> bool) (cur : Z)
    (window : list (Z * string)) :
  Screen.list_run accepts cur window
  = if forallb accepts (Screen.list_rows cur window)
    then inr (Screen.list_rows cur window)
    else inl curses_error.
Proof.
  induction window as [|[idx it] rest IH];
    cbn [Screen.list_run Screen.list_rows map forallb fst snd];
    [reflexivity|].
  unfold Screen.put.
  destruct (accepts (if idx =? cur then Screen.addstr idx 0 it 2
                     else Screen.addstr idx 0 it 1)); cbn [bind andb];
    [|reflexivity].
  fold (Screen.list_rows cur rest). rewrite IH.
  destruct (forallb accepts (Screen.list_rows cur rest)); reflexivity.
Qed.

(** X18.  With no record opened, [display()] on the window makes the calls
    of X14 and never decodes a record: it returns when the window takes
    every one of those calls and raises [curses.error] when it refuses
    one. *)
Theorem display_run_list_mode
    (loads : string -> result (list (result (string * string))))
    (loads' : string -> option (list (string * string)))
    (accepts : Screen.draw -> bool) (s : Screen.t) (rows : list Screen.draw) :
  Screen.item s = -1 -> Screen.display loads' s = Some rows ->
  Screen.display_run loads accepts s
  = if forallb accepts rows then inr rows else inl curses_error.
Proof.
  intros Hi. unfold Screen.display, Screen.display_run.
  rewrite Hi. cbn [Z.eqb negb]. intro E. injection E as <-.
  apply list_run_eq.
Qed.

Lemma display_run_list_mode_witness :
  let s := Screen.mk ["ax"; "b"; "cx"] None (-1) 2 1 3 1 1 in
  let loads := fun _ : string =>
                 inl JSONDecodeError
                 : result (list (result (string * string))) in
  let rows := [Screen.addstr 0 0 "b" 1; Screen.addstr 1 0 "cx" 2] in
  (Screen.item s = -1 /\ Screen.display (fun _ => None) s = Some rows) /\
  Screen.display_run loads (window_accepts 2 80) s = inr rows /\
  Screen.display_run loads (window_accepts 2 1) s = inl curses_error.
Proof.
  split; [split; reflexivity|]. split.
  - exact (display_run_list_mode
             (fun _ : string => inl JSONDecodeError) (fun _ => None)
             (window_accepts 2 80)
             (Screen.mk ["ax"; "b"; "cx"] None (-1) 2 1 3 1 1)
             [Screen.addstr 0 0 "b" 1; Screen.addstr 1 0 "cx" 2]
             eq_refl eq_refl).
  - exact (display_run_list_mode
             (fun _ : string => inl JSONDecodeError) (fun _ => None)
             (window_accepts 2 1)
             (Screen.mk ["ax"; "b"; "cx"] None (-1) 2 1 3 1 1)
             [Screen.addstr 0 0 "b" 1; Screen.addstr 1 0 "cx" 2]
             eq_refl eq_refl).
Defined.

(** ** Page-down alone breaks the bounds *)





(** X16.  When the length [L] of the list is not a multiple of the line
    count [C], page-down pressed on a new screen reaches the last page after
    exactly [L // C] presses: fewer presses leave [top] on an earlier page,
    press number [L // C] puts it at [(L // C) * C] with the cursor on row 0,
    and any press after that changes nothing. *)
Theorem page_down_reaches_last_page (items0 : list string) (C : Z) :
  let L := Z.of_nat (List.length items0) in
  0 < C -> L mod C <> 0 ->
  exists s0 s_last,
    Screen.init items0 C = inr s0 /\
    paging_n Screen.DOWN (Z.to_nat (L / C)) s0 = inr s_last /\
    Screen.top s_last = L / C * C /\ Screen.current s_last = 0 /\
    Screen.paging Screen.DOWN s_last = inr s_last /\
    forall k : nat,
      (k < Z.to_nat (L / C))%nat ->
      exists sk,
        paging_n Screen.DOWN k s0 = inr sk /\
        Screen.top sk = Z.of_nat k * C /\ Screen.top sk < Screen.top s_last.
Proof.
  intros L HC HL.
  assert (Hq : 0 <= L / C) by (apply Z.div_pos; lia).
  destruct (page_down_count_partial items0 C (Z.to_nat (L / C)) HC HL)
    as (s0 & s_last & E0 & En & Es & Hlast).
  { fold L. lia. }
  fold L in Hlast. rewrite Z2Nat.id in Es, Hlast by assumption.
  exists s0, s_last. split; [exact E0|]. split; [exact En|].
  assert (Hcur : Screen.current s0 = 0).
  { revert E0. unfold Screen.init, floordiv, bind, ret.
    destruct (C =? 0); [discriminate|]. intro E; injection E as <-.
    reflexivity. }
  split; [rewrite Es; reflexivity|].
  split; [rewrite Es; exact Hcur|].
  split; [apply Hlast; reflexivity|].
  intros k Hk.
  destruct (page_down_count_partial items0 C k HC HL)
    as (s0' & sk & E0' & Ek & Esk & _).
  { fold L. lia. }
  rewrite E0 in E0'. injection E0' as <-.
  exists sk. split; [exact Ek|].
  rewrite Esk, Es. simpl. split; [reflexivity|]. nia.
Qed.

Lemma page_down_reaches_last_page_witness :
  let L := Z.of_nat (List.length (records 10)) in
  (0 < 7 /\ L mod 7 <> 0) /\
  exists s0 s_last,
    Screen.init (records 10) 7 = inr s0 /\
    paging_n Screen.DOWN (Z.to_nat (L / 7)) s0 = inr s_last /\
    Screen.top s_last = L / 7 * 7 /\ Screen.current s_last = 0 /\
    Screen.paging Screen.DOWN s_last = inr s_last /\
    forall k : nat,
      (k < Z.to_nat (L / 7))%nat ->
      exists sk,
        paging_n Screen.DOWN k s0 = inr sk /\
        Screen.top sk = Z.of_nat k * 7 /\ Screen.top sk < Screen.top s_last.
Proof.
  split; [split; [reflexivity|discriminate]|].
  apply (page_down_reaches_last_page (records 10) 7);
    [reflexivity|discriminate].
Defined.
